(** * ECO-AFRIQA front end: the About page, its sections and the style
      configuration

    A shallow embedding of the four supplied source files:

    - [FarmingSystems]   (the farming-systems section, three [FarmCard]s),
    - [tailwind_config]  (the object assigned to [module.exports]),
    - [About]            (the page component),
    - [Team]             (about-us/Team.js).

    A component is a JavaScript function from a props object to a React
    element.  The element a component returns is modelled as a tree whose
    nodes are text, host (DOM) elements and component elements; props are
    JavaScript objects, kept as association lists in source order. *)

From Stdlib Require Import String Ascii List ZArith Bool Arith Lia.
From Stdlib Require Import DecimalString.
Import ListNotations.
Open Scope string_scope.

Set Implicit Arguments.
Set Warnings "-register-all".


(** ** JavaScript values that occur in props and in the configuration *)

Inductive value : Type :=
| VStr  (s : string)
| VNum  (z : Z)
| VBool (b : bool)
| VArr  (items : list value)
| VObj  (fields : list (string * value))
| VFun  (name : string).

(** A props object; an absent key reads as [undefined], here [None]. *)
Definition Props := list (string * value).

Fixpoint lookup (k : string) (o : list (string * value)) : option value :=
  match o with
  | [] => None
  | (k', v) :: o' => if String.eqb k k' then Some v else lookup k o'
  end.

Definition keys (o : list (string * value)) : list string := map fst o.

(** Does a value contain a function (a callback) anywhere inside? *)
Fixpoint has_fun (v : value) : bool :=
  match v with
  | VFun _ => true
  | VArr items => existsb has_fun items
  | VObj fields => existsb (fun kv => has_fun (snd kv)) fields
  | _ => false
  end.

(** ** React elements *)

Inductive element : Type :=
| Text (s : string)
| Host (tag : string) (props : Props) (children : list element)
| Comp (name : string) (props : Props).

(** The double-quote character, which the Team testimonials carry as
    literal JSX text. *)
Definition dq : string := String "034"%char EmptyString.

(** ** Rendering effects

    A function component runs against the hook cells React keeps for its
    instance, and it may throw.  None of the supplied components calls a
    hook or throws; the monad makes that a statement about the code. *)

Definition HookStore := list value.

Inductive Outcome (A : Type) : Type :=
| Threw (msg : string)
| Done (a : A) (s : HookStore).

Arguments Threw {A} msg.
Arguments Done {A} a s.

Definition Render (A : Type) : Type := HookStore -> Outcome A.

Definition ret {A} (a : A) : Render A := fun s => Done a s.

Definition bind {A B} (m : Render A) (f : A -> Render B) : Render B :=
  fun s => match m s with
           | Threw msg => Threw msg
           | Done a s' => f a s'
           end.

Definition throw {A} (msg : string) : Render A := fun _ => Threw msg.

Notation "x <- m ;; k" := (bind m (fun x => k))
  (at level 61, m at next level, right associativity).

Definition Component := Props -> Render element.

(** ** src/unnamed/part_000: FarmingSystems *)

Definition lorem_card : string :=
  "Lorem ipsum dolor sit amet, consectetur adipiscing elit, sed do eiusmod tempor incididunt ut labore et dolore magna aliqua. Ut enim ad minim veniam, quis nostrud exercitation ullamco laboris nisi ut.".

Definition FarmingSystems_markup : element :=
  Host "div" [("className", VStr "block overflow-x-hidden")]
    [ Host "div" [("className", VStr "flex justify-center items-center")]
        [ Host "div" [("className", VStr "block")]
            [ Host "h3"
                [("className", VStr "text-[25px] lg:text-[40px] font-[900] font-inter text-[#008000] text-center")]
                [ Text "POPULAR FARMING SYSTEMS" ];
              Host "div" [("className", VStr "block space-y-[20px] lg:flex lg:space-x-[20px]")]
                [ Comp "FarmCard"
                    [("number", VNum 1); ("img", VStr "/static/media/veggieRack.png");
                     ("title", VStr "Hydroponics System"); ("body", VStr lorem_card)];
                  Comp "FarmCard"
                    [("number", VNum 2); ("img", VStr "/static/media/veggieRack2.png");
                     ("title", VStr "Vertical System"); ("body", VStr lorem_card)];
                  Comp "FarmCard"
                    [("number", VNum 4); ("img", VStr "/static/media/veggieFish.png");
                     ("title", VStr "Aquaponics System"); ("body", VStr lorem_card)] ] ] ] ].

Definition FarmingSystems : Component := fun _ => ret FarmingSystems_markup.

(** ** src/unnamed/part_001: the style configuration *)

Definition tailwind_config : value :=
  VObj
    [ ("purge", VArr [ VStr "./src/**/*.{js,jsx,ts,tsx}"; VStr "./public/index.html" ]);
      ("darkMode", VBool false);
      ("theme", VObj [ ("extend", VObj []) ]);
      ("variants", VObj [ ("extend", VObj []) ]);
      ("plugins", VArr []);
      ("corePlugins", VObj [ ("preflight", VBool false) ]) ].

(** ** src/unnamed/part_002: About *)

Definition About_markup : element :=
  Host "div" [("className", VStr "overflow-x-hidden")]
    [ Comp "Nav" [];
      Comp "Hero" [];
      Comp "WhyChoose" [];
      Comp "MissionVision" [];
      Comp "StriveFor" [];
      Comp "Testimonials" [];
      Comp "Team" [];
      Comp "JoinUs" [];
      Comp "FreshlyFooter" [] ].

Definition About : Component := fun _ => ret About_markup.

(** ** about-us/Team.js: Team *)

Definition avatar_class : string :=
  "mx-auto bg-cover bg-center w-[131px] h-[130px] flex-shrink-0 rounded-full border-[18px] border-[#008000]".

Definition testimonial_farm : string :=
  dq ++ "Freshly Farm's expertise has empowered our local farmers, improving the quality and quantity of our community garden's harvests." ++ dq.

Definition testimonial_lorem : string :=
  dq ++ "Lorem ipsum dolor sit amet, consectetur adipiscing elit, sed do eiusmod tempor incididunt ut labore et dolore magna aliqua." ++ dq.

(** The markup of one member block, as it is written out six times in
    Team.js; every argument is spelled at each use below. *)
Definition member_card (cls bg name role quote : string) : element :=
  Host "div" [("className", VStr cls)]
    [ Host "div"
        [("className", VStr avatar_class);
         ("style", VObj [("backgroundImage", VStr bg)])]
        [];
      Host "p" [("className", VStr "text-black text-[24px] font-[700] font-inter")]
        [ Text name ];
      Host "p" [("className", VStr "text-[#008000] text-[20px] font-[700] font-inter")]
        [ Text role ];
      Host "p"
        [("className", VStr "text-black text-[16px] font-[300] w-[199px] font-josefin  leading-[20.8px] text-start")]
        [ Text quote ] ].

Definition Team_markup : element :=
  Host "div" [("className", VStr "block ")]
    [ Host "h5"
        [("className", VStr "text-[#008000] text-[45px] text-center font-inter pt-[150px] ")]
        [ Text "Meet Our Team" ];
      Host "div"
        [("className", VStr "flex flex-wrap  justify-between  w-[100%] space-y-[20px] lg:space-y-[0px]  ")]
        [ member_card "block mx-auto w-[204px] space-y-[12px] relative"
            "url('/static/media/teamMember.png')"
            "Malaika Muchiri" "Chief Executive Officer" testimonial_farm;
          member_card "block mx-auto w-[204px] space-y-[12px] relative"
            "url('/static/media/teamMember.png')"
            "Malaika Muchiri" "Chief Executive Officer" testimonial_lorem;
          member_card "block mx-auto w-[204px] space-y-[12px] relative"
            "url('/static/media/teamMember.png')"
            "Malaika Muchiri" "Chief Executive Officer" testimonial_farm ];
      Host "div"
        [("className", VStr "flex flex-wrap justify-center mt-[71px] lg:space-x-[235px]  w-[100%]  space-y-[20px] lg:space-y-[0px]")]
        [ member_card "block space-y-[12px] relative"
            "url('/static/media/teamMember.png')"
            "Malaika Muchiri" "Chief Executive Officer" testimonial_lorem;
          member_card "block space-y-[12px] relative"
            "url('/static/media/teamMember.png')"
            "Malaika Muchiri" "Chief Executive Officer" testimonial_lorem;
          member_card "block space-y-[12px] relative"
            "url('/static/media/teamMember.png')"
            "Malaika Muchiri" "Chief Executive Officer" testimonial_lorem ];
      Host "div" [("className", VStr "flex justify-center mt-[120px]")]
        [ Host "button"
            [("className", VStr "w-[272px] h-[70px] bg-[#008000] rounded-[15px] mt-[62px] text-white text-[25px] border-none")]
            [ Text "View All" ] ] ].

Definition Team : Component := fun _ => ret Team_markup.

(** ** The text of a number

    A JavaScript number is a double.  [VNum z] is the number the literal
    [z] denotes, the double nearest to [z]; its text is the shortest
    decimal that reads back as that double, written in full up to 21
    digits and in exponent form beyond.  For an integer below 2^53 in
    magnitude that is its decimal notation. *)

Definition dec (z : Z) : string := NilZero.string_of_int (Z.to_int z).

Definition js_integer (z : Z) : bool := (Z.abs z <? 9007199254740992)%Z.

(** The double nearest to a positive integer, ties to the even mantissa. *)
Definition to_double (x : Z) : Z :=
  let bits := (Z.log2 x + 1)%Z in
  if (bits <=? 53)%Z then x
  else
    let sh := (bits - 53)%Z in
    let q := Z.shiftr x sh in
    let r := (x - Z.shiftl q sh)%Z in
    let half := Z.shiftl 1 (sh - 1) in
    let q' := if (half <? r)%Z || ((r =? half)%Z && Z.odd q) then (q + 1)%Z else q in
    Z.shiftl q' sh.

Definition digits (x : Z) : nat := String.length (dec x).

(** The decimal with the fewest significant digits that rounds to the
    double [d]: the multiple of the largest power of ten next to [d] that
    does, the nearer one if both do. *)
Fixpoint shortest (j : nat) (d : Z) : Z :=
  match j with
  | O => d
  | S j' =>
      let u := (10 ^ Z.of_nat j)%Z in
      let lo := (d / u * u)%Z in
      let hi := (lo + u)%Z in
      let ok_lo := (0 <? lo)%Z && (to_double lo =? d)%Z in
      let ok_hi := (to_double hi =? d)%Z in
      if ok_lo && ok_hi then
        if (d - lo <? hi - d)%Z then lo
        else if (hi - d <? d - lo)%Z then hi
        else if Z.even (d / u) then lo else hi
      else if ok_lo then lo
      else if ok_hi then hi
      else shortest j' d
  end.

Fixpoint strip_zeros (s : string) : string :=
  match s with
  | EmptyString => EmptyString
  | String c rest =>
      match strip_zeros rest with
      | EmptyString => if Ascii.eqb c "0"%char then EmptyString else String c EmptyString
      | rest' => String c rest'
      end
  end.

Definition exponent_form (c : Z) : string :=
  match strip_zeros (dec c) with
  | String first EmptyString => String first EmptyString
  | String first rest => String first ("." ++ rest)
  | EmptyString => EmptyString
  end ++ "e+" ++ dec (Z.of_nat (digits c) - 1).

Definition double_text (d : Z) : string :=
  if (2 ^ 1024 <=? d)%Z then "Infinity"
  else
    let c := shortest (digits d) d in
    if (digits c <=? 21)%nat then dec c else exponent_form c.

Definition number_text (z : Z) : string :=
  if js_integer z then dec z
  else (if (z <? 0)%Z then "-" else "") ++ double_text (to_double (Z.abs z)).

(** ** How React turns an expression child into output

    A non-empty string or a number becomes a text node; the empty string,
    [undefined] (an absent prop), a boolean or a function produces nothing;
    an array contributes its items; a plain object is rejected with an
    exception. *)

Fixpoint child_nodes (v : value) : option (list element) :=
  match v with
  | VStr s => if String.eqb s "" then Some [] else Some [Text s]
  | VNum z => Some [Text (number_text z)]
  | VBool _ => Some []
  | VFun _ => Some []
  | VObj _ => None
  | VArr items =>
      (fix each (l : list value) : option (list element) :=
         match l with
         | [] => Some []
         | x :: l' =>
             match child_nodes x, each l' with
             | Some a, Some b => Some (a ++ b)%list
             | _, _ => None
             end
         end) items
  end.

Definition child (v : option value) : Render (list element) :=
  match v with
  | None => ret []
  | Some x =>
      match child_nodes x with
      | Some l => ret l
      | None => throw "Objects are not valid as a React child"
      end
  end.

(** An attribute whose value is [undefined] is left out of the element. *)
Definition attr (k : string) (v : option value) : Props :=
  match v with
  | None => []
  | Some x => [(k, x)]
  end.

(** Modelled from the spec: the leaf card component [FarmCard], which
    part_000 imports from './FarmCard' and which is not among the supplied
    files.  The spec describes it as a pure, stateless card that shows a
    number badge, an image, a title and a body text, rendering the props
    (number, img, title, body) directly into markup, and asks that a missing
    optional field render as empty rather than throw.  The tags are
    placeholders; the four positions and their order are the spec's. *)
Definition FarmCard : Component := fun props =>
  badge <- child (lookup "number" props) ;;
  heading <- child (lookup "title" props) ;;
  text <- child (lookup "body" props) ;;
  ret (Host "div" []
         [ Host "span" [] badge;
           Host "img" (attr "src" (lookup "img" props)) [];
           Host "h4" [] heading;
           Host "p" [] text ]).

(** ** Placing child components

    The element a component returns still names its child components.
    [expand resolve e] is the output once every component element has been
    replaced by what that component renders; [resolve] gives the output of a
    child from its name and props. *)

Section Expand.

Variable resolve : string -> Props -> element.

Fixpoint expand (e : element) : element :=
  match e with
  | Text s => Text s
  | Host tag props cs => Host tag props (map expand cs)
  | Comp name props => resolve name props
  end.

End Expand.

(** ** Reading trees *)

Definition children (e : element) : list element :=
  match e with
  | Host _ _ cs => cs
  | _ => []
  end.

Definition props_of (e : element) : Props :=
  match e with
  | Host _ p _ => p
  | Comp _ p => p
  | Text _ => []
  end.

(** The node reached by following child indices from the root. *)
Fixpoint at_path (path : list nat) (e : element) : option element :=
  match path with
  | [] => Some e
  | i :: rest =>
      match nth_error (children e) i with
      | Some c => at_path rest c
      | None => None
      end
  end.

(** Props of every component element called [name], in document order. *)
Fixpoint comps (name : string) (e : element) : list Props :=
  match e with
  | Text _ => []
  | Host _ _ cs => flat_map (comps name) cs
  | Comp n p => if String.eqb n name then [p] else []
  end.

(** Names of all component elements, in document order. *)
Fixpoint comp_names (e : element) : list string :=
  match e with
  | Text _ => []
  | Host _ _ cs => flat_map comp_names cs
  | Comp n _ => [n]
  end.

(** Every prop of every node. *)
Fixpoint all_props (e : element) : Props :=
  match e with
  | Text _ => []
  | Host _ p cs => (p ++ flat_map all_props cs)%list
  | Comp _ p => p
  end.

(** Strings held by a value, in order. *)
Fixpoint value_strings (v : value) : list string :=
  match v with
  | VStr s => [s]
  | VNum z => [number_text z]
  | VArr items => flat_map value_strings items
  | VObj fields => flat_map (fun kv => value_strings (snd kv)) fields
  | _ => []
  end.

(** The literal strings of a rendered block: text nodes and prop values. *)
Fixpoint leaves (e : element) : list string :=
  match e with
  | Text s => [s]
  | Host _ p cs =>
      (flat_map (fun kv => value_strings (snd kv)) p ++ flat_map leaves cs)%list
  | Comp _ p => flat_map (fun kv => value_strings (snd kv)) p
  end.

(** Number of positions of [hay] at which [needle] starts. *)
Fixpoint occ (needle hay : string) : nat :=
  (if String.prefix needle hay then 1 else 0)
  + match hay with
    | EmptyString => 0
    | String _ hay' => occ needle hay'
    end.

Definition count_in (needle : string) (e : element) : nat :=
  list_sum (map (occ needle) (leaves e)).

(** ** The page: which components it places, and where *)

(** The components part_002 imports.  [Team] is about-us/Team.js, which
    ignores its props; the other eight are not among the supplied files and
    their output is left open. *)
Definition about_registry (absent : string -> Props -> element)
  : string -> Props -> element :=
  fun name props =>
    if String.eqb name "Team" then Team_markup else absent name props.

(** Navigation, hero, mission/vision, team, join-us, footer. *)
Definition about_sections : list string :=
  ["Nav"; "Hero"; "MissionVision"; "Team"; "JoinUs"; "FreshlyFooter"].

Definition is_about_section (name : string) : bool :=
  existsb (String.eqb name) about_sections.

(** ** The card records of the farming-systems section *)

Definition farm_cards : list Props := comps "FarmCard" FarmingSystems_markup.

Definition card_fields : list string := ["number"; "img"; "title"; "body"].

(** The three records the section hands to its cards, as lines 13, 14 and
    15 of part_000 write them. *)
Definition hydroponics : Props :=
  [ ("number", VNum 1); ("img", VStr "/static/media/veggieRack.png");
    ("title", VStr "Hydroponics System"); ("body", VStr lorem_card) ].

Definition vertical : Props :=
  [ ("number", VNum 2); ("img", VStr "/static/media/veggieRack2.png");
    ("title", VStr "Vertical System"); ("body", VStr lorem_card) ].

Definition aquaponics : Props :=
  [ ("number", VNum 4); ("img", VStr "/static/media/veggieFish.png");
    ("title", VStr "Aquaponics System"); ("body", VStr lorem_card) ].

Definition is_string (v : option value) : bool :=
  match v with
  | Some (VStr _) => true
  | _ => false
  end.

Definition is_number (v : option value) : bool :=
  match v with
  | Some (VNum _) => true
  | _ => false
  end.

Definition ordinal (p : Props) : list Z :=
  match lookup "number" p with
  | Some (VNum z) => [z]
  | _ => []
  end.

Definition ordinals (e : element) : list Z :=
  flat_map ordinal (comps "FarmCard" e).

Fixpoint consecutive (l : list Z) : bool :=
  match l with
  | a :: (b :: _) as rest => Z.eqb b (a + 1) && consecutive rest
  | _ => true
  end.

(** ** Reading the style configuration *)

(** The settings an object declares: the path to every value that is not
    itself an object, an empty object or an empty list declaring nothing. *)
Fixpoint settings (v : value) : list (list string * value) :=
  match v with
  | VObj fields =>
      flat_map
        (fun kv => map (fun ps => (fst kv :: fst ps, snd ps)) (settings (snd kv)))
        fields
  | VArr [] => []
  | _ => [([], v)]
  end.

Fixpoint get_in (path : list string) (v : value) : option value :=
  match path with
  | [] => Some v
  | k :: rest =>
      match v with
      | VObj fields =>
          match lookup k fields with
          | Some v' => get_in rest v'
          | None => None
          end
      | _ => None
      end
  end.

(** The dark-mode strategies the configuration file names: [false], or
    'media', or 'class'. *)
Inductive DarkMode : Type := DarkOff | DarkMedia | DarkClass.

Definition dark_mode (cfg : value) : option DarkMode :=
  match get_in ["darkMode"] cfg with
  | Some (VBool false) => Some DarkOff
  | Some (VStr "media") => Some DarkMedia
  | Some (VStr "class") => Some DarkClass
  | _ => None
  end.

Definition preflight (cfg : value) : option bool :=
  match get_in ["corePlugins"; "preflight"] cfg with
  | Some (VBool b) => Some b
  | _ => None
  end.

Definition content_globs (cfg : value) : list string :=
  match get_in ["purge"] cfg with
  | Some (VArr items) => flat_map value_strings items
  | _ => []
  end.

(** ** Card blocks of the two sections *)

(** part_000 imports one component, [FarmCard]. *)
Definition farm_registry (card : Props -> element) : string -> Props -> element :=
  fun name props => if String.eqb name "FarmCard" then card props else Comp name props.

Record Member : Type := mkMember {
  m_class : string;
  m_image : string;
  m_name  : string;
  m_role  : string;
  m_quote : string
}.

Definition member_block (m : Member) : element :=
  member_card (m_class m) (m_image m) (m_name m) (m_role m) (m_quote m).

(** The two rows of member blocks of the team section. *)
Definition team_rows (e : element) : list (list element) :=
  match at_path [1]%nat e, at_path [2]%nat e with
  | Some r1, Some r2 => [children r1; children r2]
  | _, _ => []
  end.

Definition team_blocks (e : element) : list element := concat (team_rows e).

(** Reads the member shown by a block back from its markup. *)
Definition read_member (block : element) : list Member :=
  match block with
  | Host _ [(_, VStr cls)]
      [ Host _ [_; (_, VObj [(_, VStr bg)])] [];
        Host _ _ [Text name];
        Host _ _ [Text role];
        Host _ _ [Text quote] ] => [mkMember cls bg name role quote]
  | _ => []
  end.


(** Every member block of a tree, wherever it sits, in document order. *)
Fixpoint find_members (e : element) : list Member :=
  match e with
  | Host _ _ cs =>
      match read_member e with
      | [] => flat_map find_members cs
      | found => found
      end
  | _ => []
  end.


(** The six members in the order Team.js writes them (lines 12-22, 23-33,
    34-44 in the first row, 48-58, 59-69, 70-80 in the second). *)
Definition team_roster : list Member :=
  [ mkMember "block mx-auto w-[204px] space-y-[12px] relative"
      "url('/static/media/teamMember.png')"
      "Malaika Muchiri" "Chief Executive Officer" testimonial_farm;
    mkMember "block mx-auto w-[204px] space-y-[12px] relative"
      "url('/static/media/teamMember.png')"
      "Malaika Muchiri" "Chief Executive Officer" testimonial_lorem;
    mkMember "block mx-auto w-[204px] space-y-[12px] relative"
      "url('/static/media/teamMember.png')"
      "Malaika Muchiri" "Chief Executive Officer" testimonial_farm;
    mkMember "block space-y-[12px] relative"
      "url('/static/media/teamMember.png')"
      "Malaika Muchiri" "Chief Executive Officer" testimonial_lorem;
    mkMember "block space-y-[12px] relative"
      "url('/static/media/teamMember.png')"
      "Malaika Muchiri" "Chief Executive Officer" testimonial_lorem;
    mkMember "block space-y-[12px] relative"
      "url('/static/media/teamMember.png')"
      "Malaika Muchiri" "Chief Executive Officer" testimonial_lorem ].

(** The path inside a CSS [url('...')] reference. *)
Definition image_path (bg : string) : option string :=
  let n := String.length bg in
  if (7 <=? n)%nat && String.prefix "url('" bg
     && String.eqb (substring (n - 2) 2 bg) "')"
  then Some (substring 5 (n - 7) bg)
  else None.

(** ** Event handlers and callbacks *)

Definition is_upper (c : ascii) : bool :=
  let n := nat_of_ascii c in (65 <=? n)%nat && (n <=? 90)%nat.

(** React's handler props: [on] followed by a capital, as in [onClick]. *)
Definition is_handler_name (k : string) : bool :=
  match k with
  | String "o" (String "n" (String c _)) => is_upper c
  | _ => false
  end.

Definition attaches_handler (kv : string * value) : bool :=
  is_handler_name (fst kv) || has_fun (snd kv).

Definition handlers (e : element) : Props := filter attaches_handler (all_props e).

(** A component that reads no hook cell, writes none and whose result
    depends on its props alone. *)
Definition stateless (c : Component) : Prop :=
  forall props s1 s2,
    match c props s1, c props s2 with
    | Done e1 s1', Done e2 s2' => e1 = e2 /\ s1' = s1 /\ s2' = s2
    | Threw m1, Threw m2 => m1 = m2
    | _, _ => False
    end.

(** What a render produced, if it did not throw. *)
Definition output {A} (o : Outcome A) : option A :=
  match o with
  | Done a _ => Some a
  | Threw _ => None
  end.

(** Rendering a component twice in a row on the same props. *)
Definition render_twice (c : Component) (props : Props) : Render (element * element) :=
  first <- c props ;;
  second <- c props ;;
  ret (first, second).

(** ** Card records *)

Record CardRecord : Type := mkCard {
  number : option Z;
  img    : option string;
  title  : option string;
  body   : option string
}.

(** The props object a record gives; an absent field is an absent key. *)
Definition record_props (r : CardRecord) : Props :=
  (attr "number" (option_map VNum (number r))
   ++ attr "img" (option_map VStr (img r))
   ++ attr "title" (option_map VStr (title r))
   ++ attr "body" (option_map VStr (body r)))%list.

Definition full_card (n : Z) (i t b : string) : CardRecord :=
  mkCard (Some n) (Some i) (Some t) (Some b).

Definition missing {A} (k : string) (field : option A) : list string :=
  match field with
  | Some _ => []
  | None => [k]
  end.

Definition absent_fields (r : CardRecord) : list string :=
  (missing "number" (number r) ++ missing "img" (img r)
   ++ missing "title" (title r) ++ missing "body" (body r))%list.

(** Is the position of field [k] empty in a rendered card block? *)
Definition position_empty (k : string) (e : element) : bool :=
  match k with
  | "number" => match at_path [0]%nat e with Some (Host _ _ []) => true | _ => false end
  | "img" => match at_path [1]%nat e with Some (Host _ [] _) => true | _ => false end
  | "title" => match at_path [2]%nat e with Some (Host _ _ []) => true | _ => false end
  | "body" => match at_path [3]%nat e with Some (Host _ _ []) => true | _ => false end
  | _ => false
  end.

(** The text a field shows. *)
Definition field_text (v : option value) : string :=
  match v with
  | Some (VStr s) => s
  | Some (VNum z) => number_text z
  | _ => ""
  end.

(** How often each of the four field texts occurs in the rendered block. *)
Definition field_counts (p : Props) : option (list nat) :=
  match FarmCard p [] with
  | Done e _ => Some (map (fun k => count_in (field_text (lookup k p)) e) card_fields)
  | Threw _ => None
  end.

(** What the modelled card renders for a props object. *)
Definition FarmCard_output (p : Props) : element :=
  match FarmCard p [] with
  | Done e _ => e
  | Threw _ => Text ""
  end.


(** What the spec asks of any card: the block shows the number as a badge
    and refers to the image path, the two at different places of the
    block. *)
Definition shows_badge_and_image (card : Props -> element) : Prop :=
  forall n i t b,
  exists l1 x l2 y l3,
    leaves (card (record_props (full_card n i t b)))
    = (l1 ++ x :: l2 ++ y :: l3)%list
    /\ ((x = number_text n /\ 1 <= occ i y)
        \/ (1 <= occ i x /\ y = number_text n)).



(** The text node of a string field: none when the field is absent or
    empty. *)
Definition shown (field : option string) : list element :=
  match field with
  | Some t => if String.eqb t "" then [] else [Text t]
  | None => []
  end.

(** What the card renders for a record, field by field. *)
Definition card_view (r : CardRecord) : element :=
  Host "div" []
    [ Host "span" [] (match number r with Some n => [Text (number_text n)] | None => [] end);
      Host "img" (match img r with Some i => [("src", VStr i)] | None => [] end) [];
      Host "h4" [] (shown (title r));
      Host "p" [] (shown (body r)) ].

(** ** Modules: imports, the function a file defines and its default export *)

Record SourceModule : Type := mkModule {
  mod_imports  : list (string * string);
  mod_function : string;
  mod_export   : string;
  mod_markup   : element
}.

(** part_000, lines 1-2, 4 and 25. *)
Definition FarmingSystems_module : SourceModule :=
  mkModule
    [ ("React", "react"); ("FarmCard", "./FarmCard") ]
    "FarmingSystems" "FarmingSystems" FarmingSystems_markup.

(** part_002, lines 1-10, 12 and 28. *)
Definition About_module : SourceModule :=
  mkModule
    [ ("React", "react");
      ("Nav", "../../Nav/Navbar");
      ("Hero", "./Hero");
      ("MissionVision", "./MissionVision");
      ("WhyChoose", "./WhyChoose");
      ("JoinUs", "./JoinUs");
      ("StriveFor", "./StriveFor");
      ("FreshlyFooter", "../../footer/FreshlyFooter");
      ("Team", "./Team");
      ("Testimonials", "./Testimonials") ]
    "About" "About" About_markup.

(** Team.js, lines 1, 3 and 92. *)
Definition Team_module : SourceModule :=
  mkModule [ ("React", "react") ] "Team" "Team" Team_markup.

Definition mem (x : string) (l : list string) : bool := existsb (String.eqb x) l.

(** The identifiers bound at module level. *)
Definition scope (m : SourceModule) : list string :=
  mod_function m :: map fst (mod_imports m).

(** Component identifiers the markup reads that the module does not bind. *)
Definition unbound (m : SourceModule) : list string :=
  filter (fun n => negb (mem n (scope m))) (comp_names (mod_markup m)).

(** Running the function body: building a component element reads the
    component's identifier, and reading an unbound identifier throws. *)
Definition evaluate (m : SourceModule) : Render element :=
  match unbound m with
  | [] => ret (mod_markup m)
  | x :: _ => throw ("ReferenceError: " ++ x ++ " is not defined")
  end.

(** Imported bindings, React apart, that the markup never places. *)
Definition unused_imports (m : SourceModule) : list string :=
  filter (fun n => negb (mem n (comp_names (mod_markup m))) && negb (String.eqb n "React"))
         (map fst (mod_imports m)).

Fixpoint nodupb (l : list string) : bool :=
  match l with
  | [] => true
  | x :: rest => negb (mem x rest) && nodupb rest
  end.

(** ** Host elements: tags, props, class names *)

Fixpoint host_tags (e : element) : list string :=
  match e with
  | Host tag _ cs => tag :: flat_map host_tags cs
  | _ => []
  end.

Fixpoint host_props (e : element) : Props :=
  match e with
  | Host _ p cs => (p ++ flat_map host_props cs)%list
  | _ => []
  end.

(** An inline style as Team.js writes it: one [backgroundImage] holding a
    [url('...')] reference. *)
Definition style_ok (v : value) : bool :=
  match v with
  | VObj [(k, VStr bg)] =>
      String.eqb k "backgroundImage"
      && match image_path bg with Some _ => true | None => false end
  | _ => false
  end.

Definition prop_ok (kv : string * value) : bool :=
  match kv with
  | (k, VStr _) => String.eqb k "className"
  | (k, v) => String.eqb k "style" && style_ok v
  end.





(** The class list of a [className]: split at spaces, empty pieces dropped. *)
Fixpoint tokens_from (acc s : string) : list string :=
  match s with
  | EmptyString => if String.eqb acc "" then [] else [acc]
  | String c rest =>
      if Ascii.eqb c " "%char
      then if String.eqb acc "" then tokens_from "" rest
           else acc :: tokens_from "" rest
      else tokens_from (acc ++ String c EmptyString) rest
  end.

Definition class_tokens (cls : string) : list string := tokens_from "" cls.

Definition class_of (kv : string * value) : list string :=
  match kv with
  | (k, VStr s) => if String.eqb k "className" then class_tokens s else []
  | _ => []
  end.

(** Every class of every host element, in document order. *)
Definition classes (e : element) : list string := flat_map class_of (host_props e).

(** A class cut at the colons outside square brackets: the variants, then
    the utility. *)
Fixpoint class_segments (depth : nat) (acc t : string) : list string :=
  match t with
  | EmptyString => [acc]
  | String c rest =>
      if Ascii.eqb c "["%char
      then class_segments (S depth) (acc ++ String c EmptyString) rest
      else if Ascii.eqb c "]"%char
      then class_segments (pred depth) (acc ++ String c EmptyString) rest
      else if Ascii.eqb c ":"%char && Nat.eqb depth 0
      then acc :: class_segments 0 "" rest
      else class_segments depth (acc ++ String c EmptyString) rest
  end.

(** The variant prefixes of a class, all of them: [lg:dark:flex] has [lg]
    and [dark]. *)
Definition variant_of (t : string) : list string :=
  removelast (class_segments 0 "" t).

Definition is_hex_digit (c : ascii) : bool :=
  let n := nat_of_ascii c in
  ((48 <=? n) && (n <=? 57) || (97 <=? n) && (n <=? 102)
   || (65 <=? n) && (n <=? 70))%nat.

Fixpoint hex_run (t : string) : string :=
  match t with
  | EmptyString => EmptyString
  | String c rest => if is_hex_digit c then String c (hex_run rest) else EmptyString
  end.

(** Every hex colour written in a class, wherever the [#] stands. *)
Fixpoint hex_of (t : string) : list string :=
  match t with
  | EmptyString => []
  | String c rest =>
      if Ascii.eqb c "#"%char
      then String c (hex_run rest) :: hex_of rest
      else hex_of rest
  end.

Fixpoint has_space (t : string) : bool :=
  match t with
  | EmptyString => false
  | String c rest => Ascii.eqb c " "%char || has_space rest
  end.

(** ** Objects without a repeated key *)

Fixpoint distinct_keys (v : value) : bool :=
  match v with
  | VObj fields =>
      nodupb (map fst fields)
      && forallb (fun kv => distinct_keys (snd kv)) fields
  | VArr items => forallb distinct_keys items
  | _ => true
  end.

(** * Properties *)

(** ** Basic facts about the components *)

Lemma About_returns (props : Props) (s : HookStore) :
  About props s = Done About_markup s.
Proof. reflexivity. Qed.

Lemma Team_returns (props : Props) (s : HookStore) :
  Team props s = Done Team_markup s.
Proof. reflexivity. Qed.

Lemma FarmingSystems_returns (props : Props) (s : HookStore) :
  FarmingSystems props s = Done FarmingSystems_markup s.
Proof. reflexivity. Qed.

Lemma constant_stateless (e : element) : stateless (fun _ => ret e).
Proof. intros props s1 s2. simpl. auto. Qed.

Lemma child_ignores_store (v : option value) (s1 s2 : HookStore) :
  match child v s1, child v s2 with
  | Done a s1', Done b s2' => a = b /\ s1' = s1 /\ s2' = s2
  | Threw m1, Threw m2 => m1 = m2
  | _, _ => False
  end.
Proof.
  destruct v as [x|]; simpl.
  - destruct (child_nodes x); simpl; auto.
  - auto.
Qed.

Lemma FarmCard_stateless : stateless FarmCard.
Proof.
  intros props s1 s2. unfold FarmCard, bind.
  pose proof (child_ignores_store (lookup "number" props) s1 s2) as Hn.
  destruct (child (lookup "number" props) s1) as [m1|a1 t1],
           (child (lookup "number" props) s2) as [m2|a2 t2]; try contradiction; auto.
  destruct Hn as (-> & -> & ->).
  pose proof (child_ignores_store (lookup "title" props) s1 s2) as Ht.
  destruct (child (lookup "title" props) s1) as [m1|b1 u1],
           (child (lookup "title" props) s2) as [m2|b2 u2]; try contradiction; auto.
  destruct Ht as (-> & -> & ->).
  pose proof (child_ignores_store (lookup "body" props) s1 s2) as Hb.
  destruct (child (lookup "body" props) s1) as [m1|c1 v1],
           (child (lookup "body" props) s2) as [m2|c2 v2]; try contradiction; auto.
  destruct Hb as (-> & -> & ->).
  simpl. auto.
Qed.

Lemma FarmCard_record (r : CardRecord) (s : HookStore) :
  FarmCard (record_props r) s = Done (card_view r) s.
Proof.
  destruct r as [[n|] [i|] [t|] [b|]];
    unfold FarmCard, card_view, record_props, bind, child, shown;
    cbn [number img title body attr option_map app lookup String.eqb Ascii.eqb
         Bool.eqb child_nodes];
    repeat match goal with
           | |- context [String.eqb ?x ""] => destruct (String.eqb x "")
           end; reflexivity.
Qed.

(** ** The text of a number *)

(** Numbers below 2^53 print as integers; 2^53 + 1 is not a double and
    reads as 2^53; from 10^21 on the text is in exponent form. *)
Example number_text_examples :
  map number_text
    [ 1; 2; 4; -12; 9007199254740991; 9007199254740993; 2 ^ 60;
      10 ^ 21 - 1; 10 ^ 21; 123456789012345678901234; 10 ^ 400 ]%Z
  = [ "1"; "2"; "4"; "-12"; "9007199254740991"; "9007199254740992";
      "1152921504606847000"; "1e+21"; "1e+21"; "1.2345678901234569e+23";
      "Infinity" ].
Proof. vm_compute. reflexivity. Qed.

Lemma number_text_integer (z : Z) : js_integer z = true -> number_text z = dec z.
Proof. intros H. unfold number_text. rewrite H. reflexivity. Qed.

(** ** Counting occurrences *)

Lemma prefix_length (a b : string) :
  String.prefix a b = true -> String.length a <= String.length b.
Proof.
  revert b. induction a as [|c a IH]; intros b H; simpl.
  - lia.
  - destruct b as [|d b]; simpl in *; [discriminate|].
    destruct (Ascii.ascii_dec c d); [|discriminate].
    apply IH in H. lia.
Qed.

Lemma prefix_refl (a : string) : String.prefix a a = true.
Proof.
  induction a as [|c a IH]; simpl; [reflexivity|].
  destruct (Ascii.ascii_dec c c); [assumption|congruence].
Qed.

Lemma occ_short (needle hay : string) :
  String.length hay < String.length needle -> occ needle hay = 0.
Proof.
  induction hay as [|c hay IH]; intros Hlen; cbn [occ].
  - destruct (String.prefix needle "") eqn:E; [|reflexivity].
    apply prefix_length in E. simpl in *. lia.
  - destruct (String.prefix needle (String c hay)) eqn:E.
    + apply prefix_length in E. simpl in *. lia.
    + rewrite IH; [reflexivity | simpl in Hlen; lia].
Qed.

Lemma occ_self (a : string) : occ a a = 1.
Proof.
  destruct a as [|c a]; [reflexivity|].
  cbn [occ]. rewrite prefix_refl.
  rewrite occ_short; [reflexivity | simpl; lia].
Qed.





(** The strings of a rendered card: the number, the image path and, when
    they are not empty, the title and the body. *)
Lemma leaves_card (n : Z) (i t b : string) :
  leaves (card_view (full_card n i t b))
  = (number_text n :: i
     :: (if String.eqb t "" then [] else [t])
     ++ (if String.eqb b "" then [] else [b]))%list.
Proof.
  unfold card_view, full_card, shown. cbn [number img title body].
  destruct (String.eqb t ""), (String.eqb b ""); reflexivity.
Qed.



(** ** Reading a member block back *)

Lemma read_member_block (m : Member) : read_member (member_block m) = [m].
Proof. destruct m; reflexivity. Qed.

(** ** The About page *)

(** C1.  Whatever props and hook cells the page component is invoked with,
    it returns the same element; once its children are placed, the output
    holds the nine sections in the order they are written, and the six
    sections navigation, hero, mission/vision, team, join-us and footer
    occur in it exactly once each and in that relative order. *)
Theorem About_section_order (absent : string -> Props -> element) :
  (forall props s, About props s = Done About_markup s)
  /\ expand (about_registry absent) About_markup
     = Host "div" [("className", VStr "overflow-x-hidden")]
         [ absent "Nav" []; absent "Hero" []; absent "WhyChoose" [];
           absent "MissionVision" []; absent "StriveFor" [];
           absent "Testimonials" []; Team_markup; absent "JoinUs" [];
           absent "FreshlyFooter" [] ]
  /\ comp_names About_markup
     = ["Nav"; "Hero"; "WhyChoose"; "MissionVision"; "StriveFor";
        "Testimonials"; "Team"; "JoinUs"; "FreshlyFooter"]
  /\ filter is_about_section (comp_names About_markup) = about_sections.
Proof.
  split; [intros; apply About_returns|].
  repeat split; reflexivity.
Qed.

(** ** The farming-systems cards *)

(** C2 as stated does not hold of the first card: its [number] is the
    numeric literal [1], not a string. *)
Lemma farm_card_number_not_string :
  ~ (forall p, In p farm_cards ->
     forall k, In k card_fields -> is_string (lookup k p) = true).
Proof.
  intros H.
  assert (Hin : In [("number", VNum 1); ("img", VStr "/static/media/veggieRack.png");
                    ("title", VStr "Hydroponics System"); ("body", VStr lorem_card)]
                   farm_cards) by (left; reflexivity).
  specialize (H _ Hin "number" (or_introl eq_refl)).
  discriminate H.
Qed.

(** C2, amended.  Every record passed to [FarmCard] carries exactly the
    four fields number, img, title and body; img, title and body are
    strings, and number is a numeric value. *)
Theorem farm_card_fields_typed :
  Forall (fun p =>
            keys p = card_fields
            /\ is_number (lookup "number" p) = true
            /\ is_string (lookup "img" p) = true
            /\ is_string (lookup "title" p) = true
            /\ is_string (lookup "body" p) = true)
         farm_cards.
Proof. repeat constructor. Qed.

(** C9.  Whatever it is invoked with, the farming-systems section places
    three cards whose ordinals are 1, 2 and 4 in that order; the third card
    carries 4, not 3, so the ordinals are not consecutive. *)
Theorem farm_card_ordinals (props : Props) (s : HookStore) :
  exists e,
    FarmingSystems props s = Done e s
    /\ length (comps "FarmCard" e) = 3
    /\ ordinals e = [1; 2; 4]%Z
    /\ map (lookup "number") (comps "FarmCard" e)
       = [Some (VNum 1); Some (VNum 2); Some (VNum 4)]
    /\ nth_error (ordinals e) 2 = Some 4%Z
    /\ nth_error (ordinals e) 2 <> Some 3%Z
    /\ consecutive (ordinals e) = false.
Proof.
  exists FarmingSystems_markup.
  repeat split; try reflexivity. discriminate.
Qed.

(** ** The style configuration *)

(** C7.  The configuration declares three settings and no other: the
    content globs for the React sources under ./src and for
    ./public/index.html, dark mode off, and preflight off.  The remaining
    keys (theme, variants, plugins) are present and empty. *)
Theorem style_config_options :
  settings tailwind_config
  = [ (["purge"], VArr [VStr "./src/**/*.{js,jsx,ts,tsx}"; VStr "./public/index.html"]);
      (["darkMode"], VBool false);
      (["corePlugins"; "preflight"], VBool false) ]
  /\ content_globs tailwind_config
     = ["./src/**/*.{js,jsx,ts,tsx}"; "./public/index.html"]
  /\ dark_mode tailwind_config = Some DarkOff
  /\ preflight tailwind_config = Some false
  /\ get_in ["theme"] tailwind_config = Some (VObj [("extend", VObj [])])
  /\ get_in ["variants"] tailwind_config = Some (VObj [("extend", VObj [])])
  /\ get_in ["plugins"] tailwind_config = Some (VArr [])
  /\ match tailwind_config with
     | VObj fields =>
         keys fields
         = ["purge"; "darkMode"; "theme"; "variants"; "plugins"; "corePlugins"]
     | _ => False
     end.
Proof. repeat split; reflexivity. Qed.

(** ** Sections render their cards in order *)

(** C3.  The farming-systems section is handed three card records and its
    output holds three card blocks, the card of the first, of the second
    and of the third record in that order (Hydroponics, Vertical,
    Aquaponics), for any implementation of the card; the team section
    writes six members and its output holds their six blocks in that order,
    three in each row and none elsewhere. *)
Theorem sections_render_cards_in_order :
  (forall props s (card : Props -> element),
      exists e,
        FarmingSystems props s = Done e s
        /\ comps "FarmCard" e = [hydroponics; vertical; aquaponics]
        /\ comp_names e = ["FarmCard"; "FarmCard"; "FarmCard"]
        /\ map (lookup "title") (comps "FarmCard" e)
           = [ Some (VStr "Hydroponics System"); Some (VStr "Vertical System");
               Some (VStr "Aquaponics System") ]
        /\ expand (farm_registry card) e
           = Host "div" [("className", VStr "block overflow-x-hidden")]
               [ Host "div" [("className", VStr "flex justify-center items-center")]
                   [ Host "div" [("className", VStr "block")]
                       [ Host "h3"
                           [("className", VStr "text-[25px] lg:text-[40px] font-[900] font-inter text-[#008000] text-center")]
                           [ Text "POPULAR FARMING SYSTEMS" ];
                         Host "div" [("className", VStr "block space-y-[20px] lg:flex lg:space-x-[20px]")]
                           [ card hydroponics; card vertical; card aquaponics ] ] ] ])
  /\ (forall props s (resolve : string -> Props -> element),
         exists e,
           Team props s = Done e s
           /\ expand resolve e = e
           /\ find_members e = team_roster
           /\ length (find_members e) = 6
           /\ map (fun part => length (find_members part)) (children e)
              = [0; 3; 3; 0]
           /\ map (fun part => length (children part)) (children e)
              = [1; 3; 3; 1]
           /\ option_map (fun row => flat_map read_member (children row))
                (at_path [1] e)
              = Some (firstn 3 team_roster)
           /\ option_map (fun row => flat_map read_member (children row))
                (at_path [2] e)
              = Some (skipn 3 team_roster)).
Proof.
  split.
  - intros props s card. exists FarmingSystems_markup.
    repeat split; reflexivity.
  - intros props s resolve. exists Team_markup.
    repeat split; reflexivity.
Qed.

(** ** The team roster *)



(** ** Determinism *)

Lemma stateless_twice (c : Component) (props : Props) (s : HookStore) :
  stateless c ->
  match c props s with
  | Done e s' => s' = s /\ render_twice c props s = Done (e, e) s
  | Threw msg => render_twice c props s = Threw msg
  end.
Proof.
  intros Hc. unfold render_twice, bind.
  pose proof (Hc props s s) as H1.
  destruct (c props s) as [msg|e s'] eqn:E; [reflexivity|].
  destruct H1 as (_ & -> & _). split; [reflexivity|].
  rewrite E. reflexivity.
Qed.

(** C5.  The page, the two sections and the card are stateless: their
    result depends on the props alone, not on the hook cells or on earlier
    renders, and no render changes the cells.  Rendering twice on the same
    props gives the same element twice, so any serialisation of the two
    outputs is the same string. *)
Theorem components_deterministic :
  stateless About /\ stateless Team /\ stateless FarmingSystems
  /\ stateless FarmCard
  /\ (forall props s,
         render_twice About props s = Done (About_markup, About_markup) s
         /\ render_twice Team props s = Done (Team_markup, Team_markup) s
         /\ render_twice FarmingSystems props s
            = Done (FarmingSystems_markup, FarmingSystems_markup) s)
  /\ (forall r s,
         render_twice FarmCard (record_props r) s
         = Done (card_view r, card_view r) s)
  /\ (forall (c : Component) (serialise : element -> string) props s1 s2,
         In c [About; Team; FarmingSystems; FarmCard] ->
         option_map serialise (output (c props s1))
         = option_map serialise (output (c props s2))).
Proof.
  split; [apply constant_stateless|].
  split; [apply constant_stateless|].
  split; [apply constant_stateless|].
  split; [apply FarmCard_stateless|].
  split; [intros; repeat split; reflexivity|].
  split.
  { intros r s. unfold render_twice, bind.
    rewrite !FarmCard_record. reflexivity. }
  intros c serialise props s1 s2 Hin.
  assert (Hc : stateless c).
  { simpl in Hin.
    destruct Hin as [<-|[<-|[<-|[<-|[]]]]];
      try apply constant_stateless; apply FarmCard_stateless. }
  specialize (Hc props s1 s2).
  destruct (c props s1) as [m1|e1 t1], (c props s2) as [m2|e2 t2];
    try contradiction; simpl; [reflexivity|].
  destruct Hc as (-> & _). reflexivity.
Qed.

(** The team section rendered at the hook cells [[]] and [[VNum 7]]: the
    serialisations agree. *)
Lemma components_deterministic_witness :
  In Team [About; Team; FarmingSystems; FarmCard]
  /\ option_map (fun e => String.concat "" (leaves e)) (output (Team [] []))
     = option_map (fun e => String.concat "" (leaves e)) (output (Team [] [VNum 7])).
Proof.
  split.
  - right; left; reflexivity.
  - apply (proj2 (proj2 (proj2 (proj2 (proj2 (proj2 components_deterministic)))))
             Team (fun e => String.concat "" (leaves e)) [] [] [VNum 7]).
    right; left; reflexivity.
Defined.

(** ** No handlers, no state *)

(** C8.  No element of the page, of the team section or of the
    farming-systems section carries an event-handler prop or a function
    value; the three components keep no state; the page passes no props to
    its sections, the team section places no child component, and the
    farming-systems section passes its cards numbers and strings only.  The
    "View All" button has a class name and nothing else. *)
Theorem no_handlers_no_state :
  handlers About_markup = []
  /\ handlers Team_markup = []
  /\ handlers FarmingSystems_markup = []
  /\ at_path [3; 0] Team_markup
     = Some (Host "button"
               [("className", VStr "w-[272px] h-[70px] bg-[#008000] rounded-[15px] mt-[62px] text-white text-[25px] border-none")]
               [Text "View All"])
  /\ option_map (fun b => (keys (props_of b), lookup "onClick" (props_of b)))
       (at_path [3; 0] Team_markup)
     = Some (["className"], None)
  /\ stateless About /\ stateless Team /\ stateless FarmingSystems
  /\ flat_map (fun n => comps n About_markup) (comp_names About_markup)
     = repeat [] 9
  /\ comp_names Team_markup = []
  /\ comp_names FarmingSystems_markup = ["FarmCard"; "FarmCard"; "FarmCard"]
  /\ forallb (fun p => forallb (fun kv => negb (has_fun (snd kv))) p) farm_cards
     = true.
Proof.
  repeat split; try reflexivity; apply constant_stateless.
Qed.

(** ** What a card block shows *)






(** The modelled card is one of the cards the spec describes. *)
Lemma FarmCard_shows_badge_and_image : shows_badge_and_image FarmCard_output.
Proof.
  intros n i t b. unfold FarmCard_output.
  rewrite (FarmCard_record (full_card n i t b) []). rewrite leaves_card.
  exists [], (number_text n), [], i,
    ((if String.eqb t "" then [] else [t]) ++ (if String.eqb b "" then [] else [b]))%list.
  split; [reflexivity|].
  left. split; [reflexivity|]. rewrite occ_self. lia.
Qed.


(** With the modelled card: a record whose title and body are the same
    text is shown with that text twice. *)
Example card_field_text_twice :
  field_counts (record_props (full_card 7 "a.png" "Same" "Same"))
  = Some [1; 1; 2; 2].
Proof. vm_compute. reflexivity. Qed.

(** With the modelled card, the three records of part_000. *)
Example second_farm_card_counts :
  map field_counts farm_cards
  = [Some [1; 1; 1; 1]; Some [2; 1; 1; 1]; Some [1; 1; 1; 1]].
Proof. vm_compute. reflexivity. Qed.

(** Each member block of Team.js holds the name, the role, the image path
    and the testimonial of its member exactly once. *)
Example member_blocks_show_fields_once :
  map (fun blk =>
         map (fun text => count_in text blk)
           (flat_map (fun m =>
                        [ m_name m; m_role m; "/static/media/teamMember.png";
                          m_quote m ])
                     (read_member blk)))
      (team_blocks Team_markup)
  = repeat [1; 1; 1; 1] 6.
Proof. vm_compute. reflexivity. Qed.



(** ** Absent fields *)

(** C6.  When a field of a card record is absent the card still renders,
    without throwing, and the position of that field is empty. *)
Theorem absent_field_renders_empty
    (r : CardRecord) (s : HookStore) (k : string)
    (Habsent : In k (absent_fields r)) :
  exists e,
    FarmCard (record_props r) s = Done e s
    /\ position_empty k e = true.
Proof.
  exists (card_view r). split; [apply FarmCard_record|].
  destruct r as [[n|] [i|] [t|] [b|]]; simpl in Habsent;
    repeat match goal with
           | H : _ \/ _ |- _ => destruct H as [H|H]
           | H : False |- _ => destruct H
           end; subst k; reflexivity.
Qed.

(** A record without body text. *)
Lemma absent_field_renders_empty_witness :
  In "body"
     (absent_fields
        (mkCard (Some 1%Z) (Some "/static/media/veggieRack.png")
           (Some "Hydroponics System") None))
  /\ exists e,
       FarmCard
         (record_props
            (mkCard (Some 1%Z) (Some "/static/media/veggieRack.png")
               (Some "Hydroponics System") None))
         [] = Done e []
       /\ position_empty "body" e = true.
Proof.
  split.
  - simpl. left. reflexivity.
  - apply (absent_field_renders_empty
             (mkCard (Some 1%Z) (Some "/static/media/veggieRack.png")
                (Some "Hydroponics System") None) [] "body").
    simpl. left. reflexivity.
Defined.

(** * Further properties of the supplied files *)

(** ** Module scope *)

Lemma mem_In (x : string) (l : list string) : mem x l = true <-> In x l.
Proof.
  unfold mem. rewrite existsb_exists. split.
  - intros (y & Hy & E). apply String.eqb_eq in E. subst. assumption.
  - intros H. exists x. split; [assumption | apply String.eqb_refl].
Qed.

Lemma unbound_nil (m : SourceModule) :
  unbound m = [] <->
  (forall n, In n (comp_names (mod_markup m)) -> In n (scope m)).
Proof.
  unfold unbound. split.
  - intros H n Hn.
    destruct (mem n (scope m)) eqn:E; [apply mem_In; assumption|].
    assert (Hin : In n (filter (fun n => negb (mem n (scope m)))
                          (comp_names (mod_markup m)))).
    { apply filter_In. split; [assumption | rewrite E; reflexivity]. }
    rewrite H in Hin. destruct Hin.
  - intros H.
    induction (comp_names (mod_markup m)) as [|x l IH]; [reflexivity|].
    cbn [filter].
    assert (Hx : mem x (scope m) = true) by (apply mem_In, H; left; reflexivity).
    rewrite Hx. cbn [negb]. apply IH. intros n Hn. apply H. right. assumption.
Qed.

(** The function body runs to its markup exactly when every component it
    places is bound in the module; otherwise it throws. *)
Lemma evaluate_bound (m : SourceModule) (s : HookStore) :
  evaluate m s = Done (mod_markup m) s <->
  (forall n, In n (comp_names (mod_markup m)) -> In n (scope m)).
Proof.
  rewrite <- unbound_nil. unfold evaluate.
  destruct (unbound m) as [|x l]; split; intros H;
    try reflexivity; discriminate H.
Qed.

(** X1.  In each of the three modules every component the markup places is
    bound by an import, so running the function never hits an unbound
    identifier; every import other than React is placed; no binding is
    imported twice; and the default export is the function the file
    defines. *)
Theorem modules_bind_what_they_place :
  Forall (fun m =>
            (forall s, evaluate m s = Done (mod_markup m) s)
            /\ (forall n, In n (comp_names (mod_markup m)) ->
                          In n (map fst (mod_imports m)))
            /\ unused_imports m = []
            /\ nodupb (map fst (mod_imports m)) = true
            /\ mem "React" (map fst (mod_imports m)) = true
            /\ mod_export m = mod_function m)
         [FarmingSystems_module; About_module; Team_module].
Proof.
  repeat (apply Forall_cons || apply Forall_nil);
    (split; [intros s; reflexivity|]);
    (split; [|repeat split; reflexivity]);
    intros n Hn; simpl in Hn;
    repeat (destruct Hn as [<-|Hn]; [apply mem_In; reflexivity|]);
    destruct Hn.
Qed.

(** Without its import of Team (line 9) the page would throw at the seventh
    child. *)
Example About_without_Team_import :
  evaluate
    (mkModule (filter (fun b => negb (String.eqb (fst b) "Team"))
                 (mod_imports About_module))
       "About" "About" About_markup) []
  = Threw "ReferenceError: Team is not defined".
Proof. reflexivity. Qed.

(** ** Where event handlers can come from *)

Lemma Team_no_handlers : handlers Team_markup = [].
Proof. reflexivity. Qed.

(** X2.  The frame a component returns attaches no handler of its own:
    every handler on the rendered About page comes from one of the eight
    imported components other than Team, every handler in the rendered
    farming-systems section comes from a card, and the team section has
    none whatever is in scope. *)
Theorem handlers_come_from_children :
  (forall absent,
      handlers (expand (about_registry absent) About_markup)
      = flat_map (fun n => handlers (absent n []))
          [ "Nav"; "Hero"; "WhyChoose"; "MissionVision"; "StriveFor";
            "Testimonials"; "JoinUs"; "FreshlyFooter" ])
  /\ (forall card,
         handlers (expand (farm_registry card) FarmingSystems_markup)
         = flat_map (fun p => handlers (card p)) farm_cards)
  /\ (forall resolve, handlers (expand resolve Team_markup) = []).
Proof.
  split; [|split].
  - intros absent. unfold handlers.
    change (expand (about_registry absent) About_markup)
      with (Host "div" [("className", VStr "overflow-x-hidden")]
              [ absent "Nav" []; absent "Hero" []; absent "WhyChoose" [];
                absent "MissionVision" []; absent "StriveFor" [];
                absent "Testimonials" []; Team_markup; absent "JoinUs" [];
                absent "FreshlyFooter" [] ]).
    cbn [all_props flat_map]. rewrite !filter_app.
    change (filter attaches_handler (all_props Team_markup))
      with (handlers Team_markup).
    rewrite Team_no_handlers. reflexivity.
  - intros card. unfold handlers.
    change (expand (farm_registry card) FarmingSystems_markup)
      with (Host "div" [("className", VStr "block overflow-x-hidden")]
              [ Host "div" [("className", VStr "flex justify-center items-center")]
                  [ Host "div" [("className", VStr "block")]
                      [ Host "h3"
                          [("className", VStr "text-[25px] lg:text-[40px] font-[900] font-inter text-[#008000] text-center")]
                          [ Text "POPULAR FARMING SYSTEMS" ];
                        Host "div" [("className", VStr "block space-y-[20px] lg:flex lg:space-x-[20px]")]
                          (map card farm_cards) ] ] ]).
    cbn [all_props flat_map]. rewrite !filter_app, !app_nil_r.
    change farm_cards
      with [ [("number", VNum 1); ("img", VStr "/static/media/veggieRack.png");
              ("title", VStr "Hydroponics System"); ("body", VStr lorem_card)];
             [("number", VNum 2); ("img", VStr "/static/media/veggieRack2.png");
              ("title", VStr "Vertical System"); ("body", VStr lorem_card)];
             [("number", VNum 4); ("img", VStr "/static/media/veggieFish.png");
              ("title", VStr "Aquaponics System"); ("body", VStr lorem_card)] ].
    cbn [map flat_map]. rewrite !filter_app, !app_nil_r. reflexivity.
  - intros resolve. reflexivity.
Qed.

(** ** What host elements carry *)

Lemma prop_ok_shape (kv : string * value) :
  prop_ok kv = true ->
  (fst kv = "className" /\ exists s, snd kv = VStr s)
  \/ (fst kv = "style"
      /\ exists bg p, snd kv = VObj [("backgroundImage", VStr bg)]
                      /\ image_path bg = Some p).
Proof.
  destruct kv as [k v]. unfold prop_ok.
  destruct v as [s|z|b|items|fields|f];
    try (intros H; apply andb_true_iff in H as [_ H]; discriminate H).
  - intros H. apply String.eqb_eq in H. left. split; [assumption|].
    exists s. reflexivity.
  - intros H. apply andb_true_iff in H as [Hk Hs].
    apply String.eqb_eq in Hk. right. split; [assumption|].
    unfold style_ok in Hs.
    destruct fields as [|[k' [bg|?|?|?|?|?]] [|? ?]]; try discriminate Hs.
    apply andb_true_iff in Hs as [Hk' Hp]. apply String.eqb_eq in Hk'. subst k'.
    destruct (image_path bg) as [p|] eqn:E; [|discriminate Hp].
    exists bg, p. split; [reflexivity | assumption].
Qed.

(** X3.  The three components build their markup from div, h3, h5, p and
    button only, and every prop of every host element is either a string
    [className] or a [style] object holding a single [backgroundImage] with
    a well-formed [url('...')]: no markup is injected as raw HTML, and there
    is no link, form field, id or key. *)
Theorem host_elements_carry_class_and_style_only :
  Forall (fun e =>
            Forall (fun t => In t ["div"; "h3"; "h5"; "p"; "button"]) (host_tags e)
            /\ Forall (fun kv =>
                         (fst kv = "className" /\ exists s, snd kv = VStr s)
                         \/ (fst kv = "style"
                             /\ exists bg p,
                                 snd kv = VObj [("backgroundImage", VStr bg)]
                                 /\ image_path bg = Some p))
                      (host_props e))
         [About_markup; FarmingSystems_markup; Team_markup].
Proof.
  repeat (apply Forall_cons || apply Forall_nil); split.
  all: try (apply Forall_forall; intros t Ht; apply mem_In;
            revert t Ht; apply forallb_forall; reflexivity).
  all: apply Forall_forall; intros kv Hkv; apply prop_ok_shape;
    revert kv Hkv; apply forallb_forall; reflexivity.
Qed.

(** ** Image references *)

Lemma length_append (p q : string) :
  String.length (p ++ q) = String.length p + String.length q.
Proof. induction p as [|c p IH]; simpl; [reflexivity | rewrite IH; reflexivity]. Qed.

Lemma substring_take (p q : string) :
  substring 0 (String.length p) (p ++ q) = p.
Proof.
  induction p as [|c p IH]; simpl.
  - destruct q; reflexivity.
  - rewrite IH. reflexivity.
Qed.

Lemma substring_skip (p q : string) (m : nat) :
  substring (String.length p) m (p ++ q) = substring 0 m q.
Proof. induction p as [|c p IH]; simpl; [reflexivity | assumption]. Qed.

(** Reading the path out of a [url('...')] reference gives back the path
    that was wrapped. *)
Lemma image_path_url (p : string) : image_path ("url('" ++ p ++ "')") = Some p.
Proof.
  unfold image_path.
  assert (Hlen : String.length ("url('" ++ p ++ "')") = String.length p + 7).
  { simpl. rewrite length_append. simpl. lia. }
  rewrite Hlen.
  replace (7 <=? String.length p + 7)%nat with true
    by (symmetry; apply Nat.leb_le; lia).
  replace (String.length p + 7 - 2) with (5 + String.length p) by lia.
  replace (String.length p + 7 - 7) with (String.length p) by lia.
  cbn [append String.prefix Nat.add substring].
  repeat match goal with
         | |- context [Ascii.ascii_dec ?a ?b] =>
             destruct (Ascii.ascii_dec a b); [|congruence]
         end.
  rewrite substring_skip, substring_take.
  destruct (p ++ "')"); reflexivity.
Qed.


(** ** Class lists *)

Lemma has_space_append (a b : string) :
  has_space (a ++ b) = has_space a || has_space b.
Proof.
  induction a as [|c a IH]; simpl; [reflexivity|].
  rewrite IH. apply orb_assoc.
Qed.

Lemma tokens_from_clean (s acc : string) :
  has_space acc = false ->
  Forall (fun t => t <> "" /\ has_space t = false) (tokens_from acc s).
Proof.
  revert acc. induction s as [|c rest IH]; intros acc Hacc; cbn [tokens_from].
  - destruct (String.eqb acc "") eqn:E; constructor; [|constructor].
    split; [|assumption].
    intros ->. discriminate E.
  - destruct (Ascii.eqb c " ") eqn:Ec.
    + destruct (String.eqb acc "") eqn:E.
      * apply IH. reflexivity.
      * constructor; [|apply IH; reflexivity].
        split; [|assumption]. intros ->. discriminate E.
    + apply IH. rewrite has_space_append, Hacc. simpl. rewrite Ec. reflexivity.
Qed.

(** However a [className] is spaced, its classes are non-empty and hold no
    space. *)
Lemma classes_clean (e : element) :
  Forall (fun t => t <> "" /\ has_space t = false) (classes e).
Proof.
  apply Forall_forall. intros t Ht. unfold classes in Ht.
  apply in_flat_map in Ht as ([k v] & _ & Ht).
  destruct v; simpl in Ht; try contradiction.
  destruct (String.eqb k "className"); [|contradiction].
  pose proof (tokens_from_clean s "" eq_refl) as Hclean.
  rewrite Forall_forall in Hclean. apply Hclean. assumption.
Qed.

(** X5.  In what each of the three components renders, every variant
    prefix of every class, stacked ones included, is the [lg] breakpoint,
    and every hex colour written in a class is #008000; so no class uses a
    [dark:] variant, in line with the configuration, which turns dark mode
    off. *)
Theorem classes_use_one_breakpoint_and_colour :
  Forall (fun '(c, n_classes, n_variants, n_colours) =>
            forall props s,
            exists e,
              (c : Component) props s = Done e s
              /\ length (classes e) = n_classes
              /\ length (flat_map variant_of (classes e)) = n_variants
              /\ length (flat_map hex_of (classes e)) = n_colours
              /\ Forall (fun v => v = "lg") (flat_map variant_of (classes e))
              /\ Forall (fun h => h = "#008000") (flat_map hex_of (classes e))
              /\ ~ In "dark" (flat_map variant_of (classes e)))
         [ (About, 1, 0, 0); (FarmingSystems, 16, 3, 1); (Team, 199, 3, 14) ]
  /\ dark_mode tailwind_config = Some DarkOff.
Proof.
  split; [|reflexivity].
  repeat (apply Forall_cons || apply Forall_nil); intros props s;
    eexists; (split; [reflexivity|]);
    (split; [vm_compute; reflexivity|]);
    (split; [vm_compute; reflexivity|]);
    (split; [vm_compute; reflexivity|]);
    (split; [vm_compute; repeat constructor|]);
    (split; [vm_compute; repeat constructor|]);
    vm_compute; intros H;
    repeat (destruct H as [H|H]; [discriminate H|]); exact H.
Qed.

(** ** Reading settings back *)

Lemma value_nested_ind (P : value -> Prop)
    (Hstr : forall s, P (VStr s))
    (Hnum : forall z, P (VNum z))
    (Hbool : forall b, P (VBool b))
    (Harr : forall items, Forall P items -> P (VArr items))
    (Hobj : forall fields, Forall (fun kv => P (snd kv)) fields -> P (VObj fields))
    (Hfun : forall f, P (VFun f)) :
  forall v, P v.
Proof.
  fix IH 1. intros [s|z|b|items|fields|f].
  - apply Hstr.
  - apply Hnum.
  - apply Hbool.
  - apply Harr. induction items as [|x items IHitems]; constructor.
    + apply IH.
    + apply IHitems.
  - apply Hobj. induction fields as [|[k x] fields IHfields]; constructor.
    + apply IH.
    + apply IHfields.
  - apply Hfun.
Qed.

Lemma lookup_distinct (fields : list (string * value)) (k : string) (v : value) :
  nodupb (map fst fields) = true -> In (k, v) fields -> lookup k fields = Some v.
Proof.
  induction fields as [|[k' v'] fields IH]; intros Hnd Hin; [destruct Hin|].
  cbn [map fst nodupb] in Hnd. apply andb_true_iff in Hnd as [Hfresh Hnd].
  cbn [lookup]. destruct Hin as [E|Hin].
  - inversion E; subst. rewrite String.eqb_refl. reflexivity.
  - destruct (String.eqb k k') eqn:Ek.
    + apply String.eqb_eq in Ek. subst k'.
      assert (Hmem : mem k (map fst fields) = true).
      { apply mem_In. apply in_map_iff. exists (k, v). split; [reflexivity | assumption]. }
      rewrite Hmem in Hfresh. discriminate Hfresh.
    + apply IH; assumption.
Qed.

(** In an object that repeats no key at any level, every setting is read
    back by its path. *)
Lemma settings_get_in (v : value) :
  distinct_keys v = true ->
  forall path x, In (path, x) (settings v) -> get_in path v = Some x.
Proof.
  induction v as [s|z|b|items IHitems|fields IHfields|f] using value_nested_ind;
    intros Hd path x Hin;
    try (destruct Hin as [E|[]]; inversion E; subst; reflexivity).
  - destruct items as [|i items]; [destruct Hin|].
    destruct Hin as [E|[]]. inversion E; subst. reflexivity.
  - cbn [distinct_keys] in Hd. apply andb_true_iff in Hd as [Hnd Hall].
    cbn [settings] in Hin.
    apply in_flat_map in Hin as ([k v'] & Hkv & Hin).
    apply in_map_iff in Hin as ([p' x'] & E & Hps).
    cbn [fst snd] in *. inversion E; subst. cbn [get_in].
    rewrite (lookup_distinct fields k v' Hnd Hkv).
    rewrite Forall_forall in IHfields.
    apply (IHfields (k, v') Hkv); [|assumption].
    rewrite forallb_forall in Hall. apply (Hall (k, v') Hkv).
Qed.

(** X6.  The configuration object repeats no key at any level, so none of
    its settings is overridden by a later one: each setting is read back
    by its path. *)
Theorem config_settings_read_back :
  distinct_keys tailwind_config = true
  /\ (forall path x,
         In (path, x) (settings tailwind_config) ->
         get_in path tailwind_config = Some x).
Proof.
  split; [reflexivity|].
  apply settings_get_in. reflexivity.
Qed.

(** The preflight switch, read back by its path. *)
Lemma config_settings_read_back_witness :
  In (["corePlugins"; "preflight"], VBool false) (settings tailwind_config)
  /\ get_in ["corePlugins"; "preflight"] tailwind_config = Some (VBool false).
Proof.
  split.
  - simpl. right. right. left. reflexivity.
  - apply (proj2 config_settings_read_back ["corePlugins"; "preflight"] (VBool false)).
    simpl. right. right. left. reflexivity.
Defined.
